(** * The law-of-the-wall notebook (law-of-the-wall.ipynb)

    The notebook is an exercise sheet.  Its executable content is:
    - a cell of imports (numpy, matplotlib, pandas, scipy.stats and
      scipy.optimize.curve_fit),
    - a cell building the data frame [df] with the four observations,
    - a cell displaying [df],
    - the template of the function [loglayer], whose body is a docstring,
      the comment "# insert code here" and [return u],
    - four empty cells (exercises a, c, d and e).

    Python floats are idealised as real numbers.  The shipped code performs
    no arithmetic on them, so nothing below depends on rounding. *)

From Stdlib Require Import Reals Lra.
From stdpp Require Import gmap strings list.

(** ** A fragment of Python: values, exceptions, name resolution *)

Module Py.

(** numpy arrays, by dtype. *)
Inductive ndarray :=
| IntArr (l : list Z)
| FloatArr (l : list R).

(** The objects the notebook manipulates.  A data frame is its ordered
    list of named columns. *)
Inductive value :=
| VFloat (r : R)
| VArray (a : ndarray)
| VFrame (cols : list (string * ndarray))
| VModule (name : string)
| VFunction (name : string)
| VBuiltin (name : string).

Inductive exn :=
| NameError (name : string)
| UnboundLocalError (name : string).

Inductive result (A : Type) :=
| Ok (a : A)
| Raise (e : exn).
Arguments Ok {A} a.
Arguments Raise {A} e.

(** LOAD_GLOBAL: the module namespace first, then the builtins. *)
Definition load_global (globals builtins : gmap string value)
    (x : string) : result value :=
  match globals !! x with
  | Some v => Ok v
  | None =>
      match builtins !! x with
      | Some v => Ok v
      | None => Raise (NameError x)
      end
  end.

(** Reading a name inside a function.  A name is local to the function
    when it is a parameter or the target of an assignment in the body;
    every other name is looked up as a global. *)
Definition load_name (fn_locals : list string)
    (frame globals builtins : gmap string value) (x : string)
    : result value :=
  if decide (x ∈ fn_locals) then
    match frame !! x with
    | Some v => Ok v
    | None => Raise (UnboundLocalError x)
    end
  else load_global globals builtins x.

(** The names of Python 3.11's [builtins] module. *)
Definition builtin_names : list string :=
  [ "abs"; "aiter"; "all"; "anext"; "any"; "ascii"; "bin"; "bool";
    "breakpoint"; "bytearray"; "bytes"; "callable"; "chr"; "classmethod";
    "compile"; "complex"; "copyright"; "credits"; "delattr"; "dict";
    "dir"; "divmod"; "enumerate"; "eval"; "exec"; "exit"; "filter";
    "float"; "format"; "frozenset"; "getattr"; "globals"; "hasattr";
    "hash"; "help"; "hex"; "id"; "input"; "int"; "isinstance";
    "issubclass"; "iter"; "len"; "license"; "list"; "locals"; "map";
    "max"; "memoryview"; "min"; "next"; "object"; "oct"; "open"; "ord";
    "pow"; "print"; "property"; "quit"; "range"; "repr"; "reversed";
    "round"; "set"; "setattr"; "slice"; "sorted"; "staticmethod"; "str";
    "sum"; "super"; "tuple"; "type"; "vars"; "zip";
    "True"; "False"; "None"; "Ellipsis"; "NotImplemented";
    "__build_class__"; "__debug__"; "__doc__"; "__import__";
    "__loader__"; "__name__"; "__package__"; "__spec__";
    "ArithmeticError"; "AssertionError"; "AttributeError";
    "BaseException"; "BaseExceptionGroup"; "BlockingIOError";
    "BrokenPipeError"; "BufferError"; "BytesWarning";
    "ChildProcessError"; "ConnectionAbortedError"; "ConnectionError";
    "ConnectionRefusedError"; "ConnectionResetError";
    "DeprecationWarning"; "EOFError"; "EncodingWarning";
    "EnvironmentError"; "Exception"; "ExceptionGroup";
    "FileExistsError"; "FileNotFoundError"; "FloatingPointError";
    "FutureWarning"; "GeneratorExit"; "IOError"; "ImportError";
    "ImportWarning"; "IndentationError"; "IndexError";
    "InterruptedError"; "IsADirectoryError"; "KeyError";
    "KeyboardInterrupt"; "LookupError"; "MemoryError";
    "ModuleNotFoundError"; "NameError"; "NotADirectoryError";
    "NotImplementedError"; "OSError"; "OverflowError";
    "PendingDeprecationWarning"; "PermissionError";
    "ProcessLookupError"; "RecursionError"; "ReferenceError";
    "ResourceWarning"; "RuntimeError"; "RuntimeWarning";
    "StopAsyncIteration"; "StopIteration"; "SyntaxError";
    "SyntaxWarning"; "SystemError"; "SystemExit"; "TabError";
    "TimeoutError"; "TypeError"; "UnboundLocalError";
    "UnicodeDecodeError"; "UnicodeEncodeError"; "UnicodeError";
    "UnicodeTranslateError"; "UnicodeWarning"; "UserWarning";
    "ValueError"; "Warning"; "ZeroDivisionError" ].

Definition builtins : gmap string value :=
  list_to_map (map (fun n => (n, VBuiltin n)) builtin_names).

End Py.
Import Py.

(** ** The notebook's cells *)

(** Every code cell transforms the module namespace of the kernel. *)
Definition cell := gmap string value -> gmap string value.

(** import numpy as np; import matplotlib.pyplot as plt;
    import pandas as pd; from scipy import stats;
    from scipy.optimize import curve_fit *)
Definition cell_imports : cell := fun g =>
  <["curve_fit" := VFunction "scipy.optimize.curve_fit"]>
  (<["stats" := VModule "scipy.stats"]>
  (<["pd" := VModule "pandas"]>
  (<["plt" := VModule "matplotlib.pyplot"]>
  (<["np" := VModule "numpy"]> g)))).

(** df[name] = column: replaces the column of that name, or appends it. *)
Fixpoint set_column (name : string) (col : ndarray)
    (cols : list (string * ndarray)) : list (string * ndarray) :=
  match cols with
  | [] => [(name, col)]
  | (n, c) :: rest =>
      if decide (n = name) then (n, col) :: rest
      else (n, c) :: set_column name col rest
  end.

(** The height column, in centimetres. *)
Definition z_cm : list Z := [22; 55; 89; 123]%Z.

(** The velocity column, in centimetres per second. *)
Definition u_cm_s : list R := [41.8; 50.4; 55.0; 58.4]%R.

(** df = pd.DataFrame(); df['z(cm)'] = ...; df['u(cm/s)'] = ... *)
Definition df : list (string * ndarray) :=
  set_column "u(cm/s)" (FloatArr u_cm_s)
    (set_column "z(cm)" (IntArr z_cm) []).

Definition cell_data : cell := fun g => <["df" := VFrame df]> g.

(** A cell holding the expression [df] only displays it; an empty cell
    does nothing. *)
Definition cell_show_df : cell := fun g => g.
Definition cell_empty : cell := fun g => g.

(** *** The template of [loglayer] *)

Definition loglayer_params : list string := ["z"; "ustar"; "zo"].

(** The targets of the assignments in the body of [loglayer]: the body has
    none, only the placeholder comment. *)
Definition loglayer_assigned : list string := [].

(** The frame of a call: the parameters bound to the arguments. *)
Definition loglayer_frame (z ustar zo : value) : gmap string value :=
  <["zo" := zo]> (<["ustar" := ustar]> (<["z" := z]> ∅)).

(** def loglayer(z, ustar, zo):
        '''...'''
        # insert code here
        return u *)
Definition loglayer (globals builtins : gmap string value)
    (z ustar zo : value) : result value :=
  load_name (loglayer_params ++ loglayer_assigned)
    (loglayer_frame z ustar zo) globals builtins "u".

Definition cell_loglayer : cell := fun g =>
  <["loglayer" := VFunction "loglayer"]> g.

(** The code cells in the order of the file. *)
Definition notebook : list cell :=
  [ cell_imports; cell_data; cell_show_df; cell_empty; cell_loglayer;
    cell_empty; cell_empty; cell_empty ].

Definition run (cells : list cell) (g : gmap string value)
    : gmap string value :=
  foldl (fun acc c => c acc) g cells.

(** The module namespace once every cell has run.  The names the kernel
    keeps for its own bookkeeping (In, Out, get_ipython, exit, quit and
    names starting with an underscore) are left out. *)
Definition notebook_globals : gmap string value := run notebook ∅.

(** ** The documented model *)

(** The von Karman constant of the equation in the notebook's first cell. *)
Definition kappa : R := 0.41%R.

(** The equation the notebook documents for [loglayer]:
    u = (u_star / 0.41) ln (z / z_o). *)
Definition law_of_the_wall (z ustar zo : R) : R :=
  (ustar / kappa * ln (z / zo))%R.

(** ** Observations on results *)

Inductive shape :=
| Scalar
| Length (n : nat).

Definition shape_of (v : value) : option shape :=
  match v with
  | VFloat _ => Some Scalar
  | VArray (IntArr l) => Some (Length (length l))
  | VArray (FloatArr l) => Some (Length (length l))
  | _ => None
  end.

(** The shape of what a call returned, if it returned. *)
Definition result_shape (r : result value) : option shape :=
  match r with
  | Ok v => shape_of v
  | Raise _ => None
  end.

(** The velocity a call returned, if it returned a scalar. *)
Definition result_float (r : result value) : option R :=
  match r with
  | Ok (VFloat x) => Some x
  | _ => None
  end.

(** ** The cells, statement by statement

    The cells above record what each cell binds when it runs to its end.
    Here every statement also reads the names it uses, in Python's order of
    evaluation, and stops the cell with an exception when one is unbound.
    The imported packages are taken to be installed. *)

Module Kernel.

(** How a statement stops its cell.
    - [Exn e]: Python raises [e].
    - [LengthMismatch c]: pandas raises ValueError, the column [c] is not
      as long as the index of the frame.
    - [OutOfModel x]: the name [x] is bound, but not to the object the
      notebook binds to it.  What Python does then depends on that object
      (another module offering the same attribute lets the statement
      complete, most objects make it raise) and is not modelled: neither
      an exception nor an unchanged namespace is asserted.  No session of
      a fresh kernel reaches this case, see [session_inv]. *)
Inductive failure :=
| Exn (e : exn)
| OutOfModel (x : string)
| LengthMismatch (column : string).

(** A statement either stops the cell, or returns the namespace it has
    updated.  A statement that raises leaves the namespace as it was. *)
Definition stmt := gmap string value -> failure + gmap string value.

(** import ... as x, from ... import x, def x(...): bind a name. *)
Definition assign (x : string) (v : value) : stmt :=
  fun g => inr (<[x := v]> g).

(** Reading [x.attr] where the notebook binds [x] to the module [modname]:
    NameError when [x] is unbound; bound to any other object, the
    statement leaves the model. *)
Definition expect_module (g : gmap string value) (x modname : string)
    : option failure :=
  match load_global g builtins x with
  | Raise e => Some (Exn e)
  | Ok (VModule m) =>
      if decide (m = modname) then None else Some (OutOfModel x)
  | Ok _ => Some (OutOfModel x)
  end.

Definition array_length (a : ndarray) : nat :=
  match a with
  | IntArr l => length l
  | FloatArr l => length l
  end.

(** The column can be stored in the frame as it is: the frame has no
    columns yet, or its index is as long as the column. *)
Definition fits (col : ndarray) (cols : list (string * ndarray)) : bool :=
  match cols with
  | [] => true
  | (_, c) :: _ => Nat.eqb (array_length c) (array_length col)
  end.

(** The frame has columns, all of length zero. *)
Definition empty_index (cols : list (string * ndarray)) : bool :=
  match cols with
  | [] => false
  | (_, c) :: _ => Nat.eqb (array_length c) 0
  end.

(** df = pd.DataFrame() *)
Definition new_frame : stmt := fun g =>
  match expect_module g "pd" "pandas" with
  | Some e => inl e
  | None => inr (<["df" := VFrame []]> g)
  end.

(** df[name] = np.array(...): the right-hand side is evaluated first, then
    [df] is read and the column stored in it.  A column of another length
    than the index is refused with ValueError, unless the index is empty:
    pandas then rebuilds the frame on the index of the column, padding the
    old columns, which is not modelled. *)
Definition set_item (name : string) (col : ndarray) : stmt := fun g =>
  match expect_module g "np" "numpy" with
  | Some e => inl e
  | None =>
      match load_global g builtins "df" with
      | Raise e => inl (Exn e)
      | Ok (VFrame cols) =>
          if fits col cols
          then inr (<["df" := VFrame (set_column name col cols)]> g)
          else if empty_index cols then inl (OutOfModel "df")
          else inl (LengthMismatch name)
      | Ok _ => inl (OutOfModel "df")
      end
  end.

(** A cell made of the expression [x]: reads the name and displays it. *)
Definition display (x : string) : stmt := fun g =>
  match load_global g builtins x with
  | Raise e => inl (Exn e)
  | Ok _ => inr g
  end.

Definition src_imports : list stmt :=
  [ assign "np" (VModule "numpy");
    assign "plt" (VModule "matplotlib.pyplot");
    assign "pd" (VModule "pandas");
    assign "stats" (VModule "scipy.stats");
    assign "curve_fit" (VFunction "scipy.optimize.curve_fit") ].

Definition src_data : list stmt :=
  [ new_frame;
    set_item "z(cm)" (IntArr z_cm);
    set_item "u(cm/s)" (FloatArr u_cm_s) ].

Definition src_show_df : list stmt := [ display "df" ].

Definition src_loglayer : list stmt :=
  [ assign "loglayer" (VFunction "loglayer") ].

Definition src_empty : list stmt := [].

(** The code cells in the order of the file. *)
Definition source_cells : list (list stmt) :=
  [ src_imports; src_data; src_show_df; src_empty; src_loglayer;
    src_empty; src_empty; src_empty ].

(** Executing a cell: the statements in turn, up to the first exception.
    What the earlier statements bound stays bound. *)
Fixpoint exec_cell (ss : list stmt) (g : gmap string value)
    : gmap string value * option failure :=
  match ss with
  | [] => (g, None)
  | s :: rest =>
      match s g with
      | inl e => (g, Some e)
      | inr g' => exec_cell rest g'
      end
  end.

(** Cells executed by hand, one after the other: an exception ends its
    cell only.  The exceptions are collected in order.  Once a statement
    has left the model, the session says nothing of the real kernel. *)
Fixpoint session (cells : list (list stmt)) (g : gmap string value)
    : gmap string value * list failure :=
  match cells with
  | [] => (g, [])
  | c :: rest =>
      let (g1, e) := exec_cell c g in
      let (g2, es) := session rest g1 in
      (g2, match e with Some x => x :: es | None => es end)
  end.

(** "Run All": the cells in turn, up to the first exception. *)
Fixpoint run_all (cells : list (list stmt)) (g : gmap string value)
    : gmap string value * option failure :=
  match cells with
  | [] => (g, None)
  | c :: rest =>
      match exec_cell c g with
      | (g1, None) => run_all rest g1
      | (g1, Some e) => (g1, Some e)
      end
  end.

(** What holds of the namespace in every session of a fresh kernel. *)
Definition kernel_inv (g : gmap string value) : Prop :=
  g !! "u" = None
  /\ ((g !! "pd" = None /\ g !! "np" = None)
      \/ (g !! "pd" = Some (VModule "pandas")
          /\ g !! "np" = Some (VModule "numpy")))
  /\ (g !! "df" = None \/ g !! "df" = Some (VFrame df)).

(** The exceptions a cell can raise for want of an earlier cell. *)
Definition missing_cell (e : failure) : Prop :=
  e = Exn (NameError "pd") \/ e = Exn (NameError "df").

End Kernel.
Import Kernel.

(** ** Name resolution in the shipped notebook *)

Lemma builtins_no_u : builtins !! "u" = None.
Proof. vm_compute. reflexivity. Qed.

Lemma notebook_globals_no_u : notebook_globals !! "u" = None.
Proof.
  unfold notebook_globals, notebook, run; simpl.
  unfold cell_loglayer, cell_empty, cell_show_df, cell_data, cell_imports.
  repeat (rewrite lookup_insert_ne by discriminate).
  apply lookup_empty.
Qed.

Lemma u_not_local : "u" ∉ loglayer_params ++ loglayer_assigned.
Proof.
  unfold loglayer_params, loglayer_assigned; simpl.
  intros H. repeat (apply elem_of_cons in H as [H | H]; [discriminate |]).
  by apply elem_of_nil in H.
Qed.

(** In any namespace that binds no [u], a call raises NameError whatever
    the arguments are. *)
Lemma loglayer_unbound (g b : gmap string value) (z ustar zo : value) :
  g !! "u" = None -> b !! "u" = None ->
  loglayer g b z ustar zo = Raise (NameError "u").
Proof.
  intros Hg Hb. unfold loglayer, load_name.
  destruct (decide ("u" ∈ loglayer_params ++ loglayer_assigned)) as [Hin | _].
  - exfalso. exact (u_not_local Hin).
  - unfold load_global. rewrite Hg, Hb. reflexivity.
Qed.

Lemma loglayer_shipped (z ustar zo : value) :
  loglayer notebook_globals builtins z ustar zo = Raise (NameError "u").
Proof.
  apply loglayer_unbound; [apply notebook_globals_no_u | apply builtins_no_u].
Qed.

(** The cells bind no [u] in whatever order, and however often, they are
    executed; the execution counts stored in the file (2, 7, 8, 5) show
    that they were not run top to bottom. *)
Lemma cell_keeps_no_u (c : cell) (g : gmap string value) :
  c ∈ notebook -> g !! "u" = None -> c g !! "u" = None.
Proof.
  unfold notebook. intros Hc Hg.
  repeat (apply elem_of_cons in Hc as [-> | Hc];
          [ unfold cell_imports, cell_data, cell_show_df, cell_empty,
              cell_loglayer;
            repeat (rewrite lookup_insert_ne by discriminate); exact Hg
          | ]).
  by apply elem_of_nil in Hc.
Qed.

Lemma run_keeps_no_u (cs : list cell) (g : gmap string value) :
  Forall (fun c => c ∈ notebook) cs ->
  g !! "u" = None -> run cs g !! "u" = None.
Proof.
  unfold run. intros Hcs. revert g.
  induction Hcs as [| c cs Hc _ IH]; intros g Hg; simpl.
  - exact Hg.
  - apply IH. apply cell_keeps_no_u; assumption.
Qed.

Lemma loglayer_any_cell_order (cs : list cell) (z ustar zo : value) :
  Forall (fun c => c ∈ notebook) cs ->
  loglayer (run cs ∅) builtins z ustar zo = Raise (NameError "u").
Proof.
  intros Hcs. apply loglayer_unbound; [| apply builtins_no_u].
  apply run_keeps_no_u; [assumption | apply lookup_empty].
Qed.

(** The data frame holds the two columns of the source, and no later cell
    rebinds it. *)
Lemma df_columns :
  df = [("z(cm)", IntArr z_cm); ("u(cm/s)", FloatArr u_cm_s)].
Proof. reflexivity. Qed.

Lemma notebook_globals_df : notebook_globals !! "df" = Some (VFrame df).
Proof.
  unfold notebook_globals, notebook, run; simpl.
  unfold cell_loglayer, cell_empty, cell_show_df, cell_data.
  rewrite lookup_insert_ne by discriminate.
  apply lookup_insert_eq.
Qed.

(** X2.  The arguments never reach the result: two calls in the same
    namespace agree whatever they are given. *)
Lemma loglayer_ignores_arguments (g b : gmap string value)
    (z ustar zo z' ustar' zo' : value) :
  loglayer g b z ustar zo = loglayer g b z' ustar' zo'.
Proof.
  unfold loglayer, load_name.
  destruct (decide ("u" ∈ loglayer_params ++ loglayer_assigned)) as [Hin | _].
  - exfalso. exact (u_not_local Hin).
  - reflexivity.
Qed.

(** ** Properties of the documented equation *)

Section Equation.

Local Open Scope R_scope.

Lemma kappa_pos : 0 < kappa.
Proof. unfold kappa. lra. Qed.

(** The curve crosses zero velocity at the roughness length. *)
Lemma law_of_the_wall_root (ustar zo : R) :
  0 < zo -> law_of_the_wall zo ustar zo = 0.
Proof.
  intros Hzo. unfold law_of_the_wall.
  replace (zo / zo) with 1 by (field; lra).
  rewrite ln_1. ring.
Qed.

(** For a positive friction velocity the curve rises with the height. *)
Lemma law_of_the_wall_increasing (ustar zo z1 z2 : R) :
  0 < ustar -> 0 < zo -> 0 < z1 -> z1 < z2 ->
  law_of_the_wall z1 ustar zo < law_of_the_wall z2 ustar zo.
Proof.
  intros Hu Hzo Hz1 Hlt. unfold law_of_the_wall.
  pose proof kappa_pos as Hk.
  apply Rmult_lt_compat_l.
  - apply Rdiv_lt_0_compat; assumption.
  - apply ln_increasing.
    + apply Rdiv_lt_0_compat; assumption.
    + unfold Rdiv. apply Rmult_lt_compat_r; [| assumption].
      apply Rinv_0_lt_compat; assumption.
Qed.

(** The curve is linear in the friction velocity. *)
Lemma law_of_the_wall_linear (z zo a b s t : R) :
  law_of_the_wall z (a * s + b * t) zo =
  a * law_of_the_wall z s zo + b * law_of_the_wall z t zo.
Proof.
  unfold law_of_the_wall. pose proof kappa_pos as Hk. field. lra.
Qed.

End Equation.

(** ** The claims on the shipped code *)

(** C1.  The model is documented to return (u_star / 0.41) ln (z / z_o).
    At z = 22, u_star = 3.98, z_o = 0.30 the shipped [loglayer] raises
    NameError instead, so it returns no velocity, and in particular not
    the value of the documented equation. *)
Theorem loglayer_formula_missing :
  loglayer notebook_globals builtins
    (VFloat 22) (VFloat 3.98) (VFloat 0.30) = Raise (NameError "u")
  /\ result_float (loglayer notebook_globals builtins
       (VFloat 22) (VFloat 3.98) (VFloat 0.30)) = None
  /\ law_of_the_wall 22 3.98 0.30 = (3.98 / 0.41 * ln (22 / 0.30))%R.
Proof.
  rewrite loglayer_shipped. repeat split.
Qed.

(** C2.  The documented curve is zero at z = z_o, but at z = z_o = 0.30,
    u_star = 3.98 the shipped [loglayer] raises NameError rather than
    returning 0. *)
Theorem loglayer_root_missing :
  law_of_the_wall 0.30 3.98 0.30 = 0%R
  /\ loglayer notebook_globals builtins
       (VFloat 0.30) (VFloat 3.98) (VFloat 0.30) = Raise (NameError "u")
  /\ result_float (loglayer notebook_globals builtins
       (VFloat 0.30) (VFloat 3.98) (VFloat 0.30)) = None.
Proof.
  rewrite loglayer_shipped. repeat split.
  apply law_of_the_wall_root. lra.
Qed.

(** C3.  The documented curve rises from z = 22 to z = 55 and is additive
    in u_star, but the shipped [loglayer] raises NameError at both heights
    and at each friction velocity: there are no velocities to compare or
    to add. *)
Theorem loglayer_monotone_linear_missing :
  (law_of_the_wall 22 3.98 0.30 < law_of_the_wall 55 3.98 0.30)%R
  /\ law_of_the_wall 22 (2 * 3.98 + 3 * 1.5) 0.30 =
     (2 * law_of_the_wall 22 3.98 0.30 + 3 * law_of_the_wall 22 1.5 0.30)%R
  /\ result_float (loglayer notebook_globals builtins
       (VFloat 22) (VFloat 3.98) (VFloat 0.30)) = None
  /\ result_float (loglayer notebook_globals builtins
       (VFloat 55) (VFloat 3.98) (VFloat 0.30)) = None
  /\ result_float (loglayer notebook_globals builtins
       (VFloat 22) (VFloat (2 * 3.98 + 3 * 1.5)) (VFloat 0.30)) = None.
Proof.
  rewrite !loglayer_shipped. repeat split.
  - apply law_of_the_wall_increasing; lra.
  - apply law_of_the_wall_linear.
Qed.

(** C4.  A scalar height and the four heights of the data set both have a
    shape, but the shipped [loglayer] returns nothing of either shape: the
    call raises NameError for the scalar and for the sequence. *)
Theorem loglayer_shape_missing :
  shape_of (VFloat 22) = Some Scalar
  /\ result_shape (loglayer notebook_globals builtins
       (VFloat 22) (VFloat 3.98) (VFloat 0.30)) = None
  /\ shape_of (VArray (IntArr z_cm)) = Some (Length 4)
  /\ result_shape (loglayer notebook_globals builtins
       (VArray (IntArr z_cm)) (VFloat 3.98) (VFloat 0.30)) = None.
Proof.
  rewrite !loglayer_shipped. repeat split.
Qed.



(** C10.  The body of the shipped [loglayer] assigns no variable, so [u]
    is not local to it; the notebook binds no global [u] either, and every
    call, whatever z, ustar and zo are, raises NameError for [u]. *)
Theorem loglayer_always_name_error :
  loglayer_assigned = []
  /\ ("u" ∉ loglayer_params ++ loglayer_assigned)
  /\ notebook_globals !! "u" = None
  /\ forall z ustar zo : value,
       loglayer notebook_globals builtins z ustar zo
       = Raise (NameError "u").
Proof.
  split; [reflexivity |]. split; [apply u_not_local |].
  split; [apply notebook_globals_no_u |]. apply loglayer_shipped.
Qed.

(** ** The cells of the notebook, executed *)

Lemma builtins_no_pd : builtins !! "pd" = None.
Proof. vm_compute. reflexivity. Qed.

Lemma builtins_no_np : builtins !! "np" = None.
Proof. vm_compute. reflexivity. Qed.

Lemma builtins_no_df : builtins !! "df" = None.
Proof. vm_compute. reflexivity. Qed.

Lemma load_global_bound (g : gmap string value) (x : string) (v : value) :
  g !! x = Some v -> load_global g builtins x = Ok v.
Proof. intros H. unfold load_global. rewrite H. reflexivity. Qed.

Lemma load_global_unbound (g : gmap string value) (x : string) :
  g !! x = None -> builtins !! x = None ->
  load_global g builtins x = Raise (NameError x).
Proof. intros Hg Hb. unfold load_global. rewrite Hg, Hb. reflexivity. Qed.

Lemma load_global_insert_ne (g : gmap string value) (x y : string)
    (v : value) :
  x <> y -> load_global (<[x := v]> g) builtins y = load_global g builtins y.
Proof.
  intros Hxy. unfold load_global. rewrite lookup_insert_ne by exact Hxy.
  reflexivity.
Qed.

Lemma expect_module_bound (g : gmap string value) (x m : string) :
  g !! x = Some (VModule m) -> expect_module g x m = None.
Proof.
  intros H. unfold expect_module. rewrite (load_global_bound _ _ _ H).
  rewrite decide_True by reflexivity. reflexivity.
Qed.

Lemma expect_module_unbound (g : gmap string value) (x m : string) :
  g !! x = None -> builtins !! x = None ->
  expect_module g x m = Some (Exn (NameError x)).
Proof.
  intros Hg Hb. unfold expect_module.
  rewrite (load_global_unbound _ _ Hg Hb). reflexivity.
Qed.

Lemma expect_module_insert_ne (g : gmap string value) (x y m : string)
    (v : value) :
  x <> y -> expect_module (<[x := v]> g) y m = expect_module g y m.
Proof.
  intros Hxy. unfold expect_module.
  rewrite load_global_insert_ne by exact Hxy. reflexivity.
Qed.

(** Storing a column in the frame bound to [df], once numpy is at hand. *)
Lemma set_item_frame (g : gmap string value) (name : string)
    (col : ndarray) (cols : list (string * ndarray)) :
  expect_module g "np" "numpy" = None ->
  fits col cols = true ->
  set_item name col (<["df" := VFrame cols]> g)
  = inr (<["df" := VFrame (set_column name col cols)]> g).
Proof.
  intros Hnp Hfit. unfold set_item.
  rewrite expect_module_insert_ne by discriminate. rewrite Hnp.
  rewrite (load_global_bound _ "df" (VFrame cols)) by apply lookup_insert_eq.
  rewrite Hfit. rewrite insert_insert_eq. reflexivity.
Qed.

(** The data cell rebuilds the frame from nothing as soon as [pd] and [np]
    resolve to pandas and numpy. *)
Lemma exec_data_modules (g : gmap string value) :
  expect_module g "pd" "pandas" = None ->
  expect_module g "np" "numpy" = None ->
  exec_cell src_data g = (<["df" := VFrame df]> g, None).
Proof.
  intros Hpd Hnp. unfold src_data. cbn [exec_cell].
  unfold new_frame. rewrite Hpd.
  rewrite (set_item_frame g "z(cm)" (IntArr z_cm) []) by (exact Hnp || reflexivity).
  rewrite (set_item_frame g "u(cm/s)" (FloatArr u_cm_s))
    by (exact Hnp || reflexivity).
  reflexivity.
Qed.

Lemma exec_imports (g : gmap string value) :
  exec_cell src_imports g = (cell_imports g, None).
Proof. reflexivity. Qed.

Lemma exec_loglayer (g : gmap string value) :
  exec_cell src_loglayer g = (cell_loglayer g, None).
Proof. reflexivity. Qed.

Lemma exec_data_no_pandas (g : gmap string value) :
  g !! "pd" = None ->
  exec_cell src_data g = (g, Some (Exn (NameError "pd"))).
Proof.
  intros Hpd. unfold src_data. cbn [exec_cell]. unfold new_frame.
  rewrite (expect_module_unbound g "pd" "pandas" Hpd builtins_no_pd).
  reflexivity.
Qed.

Lemma exec_show_df (g : gmap string value) :
  exec_cell src_show_df g
  = (g, match g !! "df" with
        | Some _ => None
        | None => Some (Exn (NameError "df"))
        end).
Proof.
  unfold src_show_df. cbn [exec_cell]. unfold display, load_global.
  destruct (g !! "df") as [v |]; [reflexivity |].
  rewrite builtins_no_df. reflexivity.
Qed.

(** Every cell keeps the invariant, and raises at most for want of an
    earlier cell. *)
Lemma exec_cell_inv (c : list stmt) (g : gmap string value) :
  c ∈ source_cells -> kernel_inv g ->
  kernel_inv (exec_cell c g).1
  /\ forall e, (exec_cell c g).2 = Some e -> missing_cell e.
Proof.
  unfold source_cells. intros Hc (Hu & Hmod & Hdf).
  repeat (apply elem_of_cons in Hc as [-> | Hc]);
    [ .. | by apply elem_of_nil in Hc ].
  - rewrite exec_imports. split; [| intros e [=]].
    unfold kernel_inv, cell_imports. cbn [fst]. split; [| split].
    + repeat (rewrite lookup_insert_ne by discriminate). exact Hu.
    + right. split.
      * repeat (rewrite lookup_insert_ne by discriminate).
        apply lookup_insert_eq.
      * repeat (rewrite lookup_insert_ne by discriminate).
        apply lookup_insert_eq.
    + repeat (rewrite lookup_insert_ne by discriminate). exact Hdf.
  - destruct Hmod as [[Hpd Hnp] | [Hpd Hnp]].
    + rewrite (exec_data_no_pandas g Hpd). cbn [fst snd]. split.
      * split; [exact Hu |]. split; [left; split; assumption | exact Hdf].
      * intros e [= <-]. left. reflexivity.
    + rewrite (exec_data_modules g) by (apply expect_module_bound; assumption).
      cbn [fst snd]. split; [| intros e [=]].
      unfold kernel_inv. repeat (rewrite lookup_insert_ne by discriminate).
      split; [exact Hu |]. split; [right; split; assumption |].
      right. apply lookup_insert_eq.
  - rewrite exec_show_df. cbn [fst snd]. split.
    + split; [exact Hu |]. split; [exact Hmod | exact Hdf].
    + intros e He. destruct (g !! "df"); [discriminate He |].
      injection He as <-. right. reflexivity.
  - cbn. split; [| intros e [=]]. split; [exact Hu |]. split; assumption.
  - rewrite exec_loglayer. cbn [fst]. split; [| intros e [=]].
    unfold kernel_inv, cell_loglayer.
    repeat (rewrite lookup_insert_ne by discriminate).
    split; [exact Hu |]. split; assumption.
  - cbn. split; [| intros e [=]]. split; [exact Hu |]. split; assumption.
  - cbn. split; [| intros e [=]]. split; [exact Hu |]. split; assumption.
  - cbn. split; [| intros e [=]]. split; [exact Hu |]. split; assumption.
Qed.

Lemma session_cons (c : list stmt) (cs : list (list stmt))
    (g : gmap string value) :
  session (c :: cs) g
  = ((session cs (exec_cell c g).1).1,
     match (exec_cell c g).2 with
     | Some x => x :: (session cs (exec_cell c g).1).2
     | None => (session cs (exec_cell c g).1).2
     end).
Proof.
  cbn [session]. destruct (exec_cell c g) as [g1 e]. cbn [fst snd].
  destruct (session cs g1) as [g2 es]. reflexivity.
Qed.

Lemma session_inv (cs : list (list stmt)) (g : gmap string value) :
  Forall (fun c => c ∈ source_cells) cs -> kernel_inv g ->
  kernel_inv (session cs g).1 /\ Forall missing_cell (session cs g).2.
Proof.
  intros Hcs. revert g.
  induction Hcs as [| c cs Hc _ IH]; intros g Hg.
  - cbn. split; [exact Hg | constructor].
  - rewrite session_cons. cbn [fst snd].
    destruct (exec_cell_inv c g Hc Hg) as [Hg1 He].
    destruct (IH _ Hg1) as [Hg2 Hes]. split; [exact Hg2 |].
    destruct (exec_cell c g).2 as [e |]; [| exact Hes].
    constructor; [apply He; reflexivity | exact Hes].
Qed.

Lemma kernel_inv_fresh : kernel_inv ∅.
Proof.
  split; [apply lookup_empty |]. split.
  - left. split; apply lookup_empty.
  - left. apply lookup_empty.
Qed.

(** Once pandas, numpy and the frame are bound, no cell raises and none
    unbinds them. *)
Definition kernel_ready (g : gmap string value) : Prop :=
  g !! "pd" = Some (VModule "pandas")
  /\ g !! "np" = Some (VModule "numpy")
  /\ g !! "df" = Some (VFrame df).

Lemma exec_cell_ready (c : list stmt) (g : gmap string value) :
  c ∈ source_cells -> kernel_ready g ->
  kernel_ready (exec_cell c g).1 /\ (exec_cell c g).2 = None.
Proof.
  unfold source_cells. intros Hc (Hpd & Hnp & Hdf).
  repeat (apply elem_of_cons in Hc as [-> | Hc]);
    [ .. | by apply elem_of_nil in Hc ].
  - rewrite exec_imports. split; [| reflexivity].
    unfold kernel_ready, cell_imports. cbn [fst]. split; [| split].
    + repeat (rewrite lookup_insert_ne by discriminate).
      apply lookup_insert_eq.
    + repeat (rewrite lookup_insert_ne by discriminate).
      apply lookup_insert_eq.
    + repeat (rewrite lookup_insert_ne by discriminate). exact Hdf.
  - rewrite (exec_data_modules g) by (apply expect_module_bound; assumption).
    split; [| reflexivity]. unfold kernel_ready. cbn [fst].
    repeat (rewrite lookup_insert_ne by discriminate).
    split; [exact Hpd |]. split; [exact Hnp | apply lookup_insert_eq].
  - rewrite exec_show_df, Hdf. split; [| reflexivity].
    split; [exact Hpd |]. split; assumption.
  - cbn. split; [| reflexivity]. split; [exact Hpd |]. split; assumption.
  - rewrite exec_loglayer. split; [| reflexivity].
    unfold kernel_ready, cell_loglayer. cbn [fst].
    repeat (rewrite lookup_insert_ne by discriminate).
    split; [exact Hpd |]. split; assumption.
  - cbn. split; [| reflexivity]. split; [exact Hpd |]. split; assumption.
  - cbn. split; [| reflexivity]. split; [exact Hpd |]. split; assumption.
  - cbn. split; [| reflexivity]. split; [exact Hpd |]. split; assumption.
Qed.

Lemma session_ready (cs : list (list stmt)) (g : gmap string value) :
  Forall (fun c => c ∈ source_cells) cs -> kernel_ready g ->
  kernel_ready (session cs g).1 /\ (session cs g).2 = [].
Proof.
  intros Hcs. revert g.
  induction Hcs as [| c cs Hc _ IH]; intros g Hg.
  - cbn. split; [exact Hg | reflexivity].
  - rewrite session_cons. cbn [fst snd].
    destruct (exec_cell_ready c g Hc Hg) as [Hg1 He].
    destruct (IH _ Hg1) as [Hg2 Hes]. rewrite He. split; assumption.
Qed.

Lemma imports_then_data_ready (g : gmap string value) :
  exec_cell src_data (cell_imports g)
  = (<["df" := VFrame df]> (cell_imports g), None)
  /\ kernel_ready (<["df" := VFrame df]> (cell_imports g)).
Proof.
  assert (Hpd : cell_imports g !! "pd" = Some (VModule "pandas")).
  { unfold cell_imports.
    repeat (rewrite lookup_insert_ne by discriminate).
    apply lookup_insert_eq. }
  assert (Hnp : cell_imports g !! "np" = Some (VModule "numpy")).
  { unfold cell_imports.
    repeat (rewrite lookup_insert_ne by discriminate).
    apply lookup_insert_eq. }
  split.
  - apply exec_data_modules; apply expect_module_bound; assumption.
  - unfold kernel_ready.
    repeat (rewrite lookup_insert_ne by discriminate).
    split; [exact Hpd |]. split; [exact Hnp | apply lookup_insert_eq].
Qed.

(** A session that runs the cells out of order: the template, the display
    and the data before the imports, then the data again. *)
Definition shuffled_session : list (list stmt) :=
  [ src_loglayer; src_show_df; src_data; src_imports; src_data ].

Lemma shuffled_session_cells :
  Forall (fun c => c ∈ source_cells) shuffled_session.
Proof.
  unfold shuffled_session, source_cells.
  repeat (constructor;
          [ cbv beta;
            repeat first [ apply list_elem_of_here
                         | apply list_elem_of_further ] | ]).
  constructor.
Defined.

Lemma run_all_cons_ok (c : list stmt) (cs : list (list stmt))
    (g g1 : gmap string value) :
  exec_cell c g = (g1, None) -> run_all (c :: cs) g = run_all cs g1.
Proof. intros H. cbn [run_all]. rewrite H. reflexivity. Qed.

(** ** Further properties of the shipped code *)

(** X1.  When the namespace binds a global [u], [loglayer] returns that
    object without an error, whatever heights and parameters it is given. *)
Theorem loglayer_returns_global_u (g b : gmap string value)
    (v z ustar zo : value) :
  g !! "u" = Some v -> loglayer g b z ustar zo = Ok v.
Proof.
  intros Hg. unfold loglayer, load_name.
  destruct (decide ("u" ∈ loglayer_params ++ loglayer_assigned)) as [Hin | _].
  - exfalso. exact (u_not_local Hin).
  - unfold load_global. rewrite Hg. reflexivity.
Qed.

Lemma loglayer_returns_global_u_witness :
  <["u" := VArray (FloatArr u_cm_s)]> notebook_globals !! "u"
  = Some (VArray (FloatArr u_cm_s))
  /\ loglayer (<["u" := VArray (FloatArr u_cm_s)]> notebook_globals)
       builtins (VFloat 22) (VFloat 3.98) (VFloat 0.30)
     = Ok (VArray (FloatArr u_cm_s)).
Proof.
  assert (H : <["u" := VArray (FloatArr u_cm_s)]> notebook_globals !! "u"
              = Some (VArray (FloatArr u_cm_s))) by apply lookup_insert_eq.
  split; [exact H |].
  exact (loglayer_returns_global_u _ builtins _ (VFloat 22) (VFloat 3.98)
           (VFloat 0.30) H).
Defined.

(** X3.  "Run All" in a fresh kernel raises no exception and leaves the
    names np, plt, pd, stats, curve_fit, df and loglayer bound as recorded
    in [notebook_globals]. *)
Theorem run_all_fresh_kernel :
  run_all source_cells ∅ = (notebook_globals, None).
Proof.
  unfold source_cells.
  rewrite (run_all_cons_ok _ _ _ _ (exec_imports ∅)).
  rewrite (run_all_cons_ok _ _ _ _ (proj1 (imports_then_data_ready ∅))).
  assert (Hshow : forall g : gmap string value,
            exec_cell src_show_df (<["df" := VFrame df]> g)
            = (<["df" := VFrame df]> g, None)).
  { intros g. rewrite exec_show_df, lookup_insert_eq. reflexivity. }
  rewrite (run_all_cons_ok _ _ _ _ (Hshow _)).
  reflexivity.
Qed.

(** X4.  Executed in a kernel where [pd] is unbound (the imports have not
    run), the data cell raises NameError for [pd] at its first statement
    and binds nothing. *)
Theorem data_cell_before_imports (g : gmap string value) :
  g !! "pd" = None ->
  exec_cell src_data g = (g, Some (Exn (NameError "pd"))).
Proof. apply exec_data_no_pandas. Qed.

Lemma data_cell_before_imports_witness :
  (∅ : gmap string value) !! "pd" = None
  /\ exec_cell src_data ∅ = (∅, Some (Exn (NameError "pd"))).
Proof.
  assert (H : (∅ : gmap string value) !! "pd" = None) by apply lookup_empty.
  split; [exact H |]. exact (data_cell_before_imports ∅ H).
Defined.

(** X5.  With pandas bound to [pd] but [np] unbound, the data cell stops
    at its second statement with NameError for [np]; the first statement
    has already taken effect, so [df] is left bound to a frame without
    columns. *)
Theorem data_cell_without_numpy (g : gmap string value) :
  g !! "pd" = Some (VModule "pandas") -> g !! "np" = None ->
  exec_cell src_data g
  = (<["df" := VFrame []]> g, Some (Exn (NameError "np"))).
Proof.
  intros Hpd Hnp. unfold src_data. cbn [exec_cell]. unfold new_frame.
  rewrite (expect_module_bound g "pd" "pandas" Hpd).
  unfold set_item at 1. rewrite expect_module_insert_ne by discriminate.
  rewrite (expect_module_unbound g "np" "numpy" Hnp builtins_no_np).
  reflexivity.
Qed.

Lemma data_cell_without_numpy_witness :
  ({["pd" := VModule "pandas"]} : gmap string value) !! "pd"
  = Some (VModule "pandas")
  /\ ({["pd" := VModule "pandas"]} : gmap string value) !! "np" = None
  /\ exec_cell src_data {["pd" := VModule "pandas"]}
     = (<["df" := VFrame []]> {["pd" := VModule "pandas"]},
        Some (Exn (NameError "np"))).
Proof.
  assert (H1 : ({["pd" := VModule "pandas"]} : gmap string value) !! "pd"
               = Some (VModule "pandas")) by apply lookup_singleton_eq.
  assert (H2 : ({["pd" := VModule "pandas"]} : gmap string value) !! "np"
               = None) by (apply lookup_singleton_ne; discriminate).
  split; [exact H1 |]. split; [exact H2 |].
  exact (data_cell_without_numpy _ H1 H2).
Defined.

(** X6.  With pandas and numpy bound, the data cell raises nothing and
    binds [df] to the frame of the four observations, whatever [df] was
    bound to before: the frame is rebuilt, never extended. *)
Theorem data_cell_rebuilds_frame (g : gmap string value) :
  g !! "pd" = Some (VModule "pandas") ->
  g !! "np" = Some (VModule "numpy") ->
  exec_cell src_data g = (<["df" := VFrame df]> g, None).
Proof.
  intros Hpd Hnp.
  apply exec_data_modules; apply expect_module_bound; assumption.
Qed.

Lemma data_cell_rebuilds_frame_witness :
  <["df" := VFloat 1]> (cell_imports ∅) !! "pd" = Some (VModule "pandas")
  /\ <["df" := VFloat 1]> (cell_imports ∅) !! "np" = Some (VModule "numpy")
  /\ exec_cell src_data (<["df" := VFloat 1]> (cell_imports ∅))
     = (<["df" := VFrame df]> (<["df" := VFloat 1]> (cell_imports ∅)), None).
Proof.
  assert (H1 : <["df" := VFloat 1]> (cell_imports ∅) !! "pd"
               = Some (VModule "pandas")).
  { unfold cell_imports.
    repeat (rewrite lookup_insert_ne by discriminate).
    apply lookup_insert_eq. }
  assert (H2 : <["df" := VFloat 1]> (cell_imports ∅) !! "np"
               = Some (VModule "numpy")).
  { unfold cell_imports.
    repeat (rewrite lookup_insert_ne by discriminate).
    apply lookup_insert_eq. }
  split; [exact H1 |]. split; [exact H2 |].
  exact (data_cell_rebuilds_frame _ H1 H2).
Defined.

(** X7.  In a fresh kernel, whatever cells of the notebook are executed,
    in whatever order and however often, [df] is afterwards either unbound
    or bound to the frame of the four observations: no cell alters the
    observations once they are loaded, and no failing cell leaves a
    partial frame behind. *)
Theorem session_observations_fixed (cs : list (list stmt)) :
  Forall (fun c => c ∈ source_cells) cs ->
  (session cs ∅).1 !! "df" = None
  \/ (session cs ∅).1 !! "df" = Some (VFrame df).
Proof.
  intros Hcs.
  destruct (session_inv cs ∅ Hcs kernel_inv_fresh) as [(_ & _ & Hdf) _].
  exact Hdf.
Qed.

Lemma session_observations_fixed_witness :
  Forall (fun c => c ∈ source_cells) shuffled_session
  /\ ((session shuffled_session ∅).1 !! "df" = None
      \/ (session shuffled_session ∅).1 !! "df" = Some (VFrame df)).
Proof.
  split; [exact shuffled_session_cells |].
  exact (session_observations_fixed shuffled_session shuffled_session_cells).
Defined.

(** X8.  In a fresh kernel, whatever cells of the notebook are executed,
    in whatever order and however often, the only exceptions raised are
    NameError for [pd] (the data cell before the imports) and NameError
    for [df] (the display before the data). *)
Theorem session_exceptions (cs : list (list stmt)) :
  Forall (fun c => c ∈ source_cells) cs ->
  Forall missing_cell (session cs ∅).2.
Proof.
  intros Hcs. exact (proj2 (session_inv cs ∅ Hcs kernel_inv_fresh)).
Qed.

Lemma session_exceptions_witness :
  Forall (fun c => c ∈ source_cells) shuffled_session
  /\ Forall missing_cell (session shuffled_session ∅).2.
Proof.
  split; [exact shuffled_session_cells |].
  exact (session_exceptions shuffled_session shuffled_session_cells).
Defined.

(** X9.  In a fresh kernel, whatever cells of the notebook are executed,
    in whatever order and however often, none binds [u]: a call of
    [loglayer] afterwards raises NameError for [u], whatever its
    arguments. *)
Theorem session_loglayer_name_error (cs : list (list stmt))
    (z ustar zo : value) :
  Forall (fun c => c ∈ source_cells) cs ->
  loglayer (session cs ∅).1 builtins z ustar zo = Raise (NameError "u").
Proof.
  intros Hcs.
  destruct (session_inv cs ∅ Hcs kernel_inv_fresh) as [(Hu & _) _].
  apply loglayer_unbound; [exact Hu | apply builtins_no_u].
Qed.

Lemma session_loglayer_name_error_witness :
  Forall (fun c => c ∈ source_cells) shuffled_session
  /\ loglayer (session shuffled_session ∅).1 builtins
       (VArray (IntArr z_cm)) (VFloat 3.98) (VFloat 0.30)
     = Raise (NameError "u").
Proof.
  split; [exact shuffled_session_cells |].
  exact (session_loglayer_name_error shuffled_session
           (VArray (IntArr z_cm)) (VFloat 3.98) (VFloat 0.30)
           shuffled_session_cells).
Defined.

(** X10.  Once the imports cell and then the data cell have been executed,
    in a kernel in any state, no cell executed afterwards raises an
    exception, and [df] stays bound to the frame of the four
    observations. *)
Theorem session_after_setup (cs : list (list stmt))
    (g : gmap string value) :
  Forall (fun c => c ∈ source_cells) cs ->
  (session (src_imports :: src_data :: cs) g).2 = []
  /\ (session (src_imports :: src_data :: cs) g).1 !! "df"
     = Some (VFrame df).
Proof.
  intros Hcs. rewrite !session_cons. rewrite exec_imports. cbn [fst snd].
  destruct (imports_then_data_ready g) as [Hdata Hready].
  rewrite Hdata. cbn [fst snd].
  destruct (session_ready cs _ Hcs Hready) as [(_ & _ & Hdf) Hes].
  split; assumption.
Qed.

Lemma session_after_setup_witness :
  Forall (fun c => c ∈ source_cells) shuffled_session
  /\ (session (src_imports :: src_data :: shuffled_session)
        {["df" := VFloat 1]}).2 = []
  /\ (session (src_imports :: src_data :: shuffled_session)
        {["df" := VFloat 1]}).1 !! "df" = Some (VFrame df).
Proof.
  split; [exact shuffled_session_cells |].
  exact (session_after_setup shuffled_session {["df" := VFloat 1]}
           shuffled_session_cells).
Defined.
